(** * Gist tools of the GitHub MCP server: a shallow embedding of
      [pkg/github/gists.go] and the properties of its three handlers.

    The file has three parts: the collaborators the handlers talk to
    (errors, request arguments, tool results, tool descriptors, the remote
    client and its response body), the three tool constructors [GetGist],
    [ListGists] and [ListStarredGists] written in a small state monad that
    records every effect, and the theorems. *)

From Stdlib Require Import QArith.
From stdpp Require Import gmap strings list fin_maps.

Local Open Scope string_scope.

(** ** Go errors

    [errors.New] / [fmt.Errorf] without a verb give a leaf; [fmt.Errorf]
    with a final [%w] wraps an inner error behind a textual prefix.
    [ValidationError] is the failure of parameter extraction. *)

Inductive ValidationFailure := MissingParam | WrongTypeParam | EmptyParam.

Inductive error :=
| errors_New (msg : string)
| ValidationError (why : ValidationFailure) (param : string)
| fmt_Errorf_w (prefix : string) (inner : error).

Definition validation_message (why : ValidationFailure) (p : string) : string :=
  match why with
  | MissingParam => "missing required parameter: " +:+ p
  | WrongTypeParam => "parameter " +:+ p +:+ " is not of type string"
  | EmptyParam => "missing required parameter: " +:+ p
  end.

(** The [Error()] method. *)
Fixpoint Error (e : error) : string :=
  match e with
  | errors_New msg => msg
  | ValidationError why p => validation_message why p
  | fmt_Errorf_w prefix inner => prefix +:+ Error inner
  end.

(** [errors.Unwrap]. *)
Definition Unwrap (e : error) : option error :=
  match e with
  | fmt_Errorf_w _ inner => Some inner
  | _ => None
  end.

(** ** Invocation requests

    [request.Params.Arguments] is a [map[string]interface{}] filled by the
    JSON decoder: strings, numbers (float64, carried here as rationals: no
    handler looks at their value), booleans and null. *)

Inductive Value :=
| VString (s : string)
| VNumber (n : Q)
| VBool (b : bool)
| VNull.

Record CallToolRequest := mkRequest { Arguments : gmap string Value }.

(** Modelled from the spec: [requiredParam], the generic parameter extractor
    of the package, is not part of [gists.go].  The spec fixes its contract
    for the string instance used by [GetGist]: "parameter must be present and
    non-empty; absence or type mismatch fails with a ValidationError".  The
    texts of the three failures are those of [validation_message]; the spec
    does not fix them. *)
Definition requiredParam_string (r : CallToolRequest) (p : string)
  : string + error :=
  match Arguments r !! p with
  | None => inr (ValidationError MissingParam p)
  | Some (VString s) =>
      if decide (s = "") then inr (ValidationError EmptyParam p) else inl s
  | Some _ => inr (ValidationError WrongTypeParam p)
  end.

(** ** Tool results ([mcp.CallToolResult]) *)

Record TextContent := mkText { Type_ : string; Text : string }.

Record CallToolResult := mkResult { Content : list TextContent; IsError : bool }.

Definition NewToolResultText (text : string) : CallToolResult :=
  {| Content := [ {| Type_ := "text"; Text := text |} ]; IsError := false |}.

Definition NewToolResultError (text : string) : CallToolResult :=
  {| Content := [ {| Type_ := "text"; Text := text |} ]; IsError := true |}.

(** ** Tool descriptors ([mcp.Tool] and its option functions) *)

Record ToolAnnotation := mkAnnotation { Title : string; ReadOnlyHint : bool }.

Record Property := mkProperty {
  prop_type : string;
  prop_description : string;
  prop_required : bool;
  prop_min : option Q;
  prop_max : option Q
}.

Record ToolInputSchema := mkSchema {
  Properties : gmap string Property;
  Required : list string
}.

Record Tool := mkTool {
  Name : string;
  Description : string;
  Annotations : ToolAnnotation;
  InputSchema : ToolInputSchema
}.

Definition ToolOption := Tool -> Tool.
Definition PropertyOption := Property -> Property.

Definition mcp_NewTool (name : string) (opts : list ToolOption) : Tool :=
  foldl (fun tool opt => opt tool)
        {| Name := name; Description := "";
           Annotations := {| Title := ""; ReadOnlyHint := false |};
           InputSchema := {| Properties := ∅; Required := [] |} |}
        opts.

Definition mcp_WithDescription (d : string) : ToolOption :=
  fun tool => {| Name := Name tool; Description := d;
                 Annotations := Annotations tool;
                 InputSchema := InputSchema tool |}.

Definition mcp_WithToolAnnotation (a : ToolAnnotation) : ToolOption :=
  fun tool => {| Name := Name tool; Description := Description tool;
                 Annotations := a; InputSchema := InputSchema tool |}.

Definition mcp_Required : PropertyOption :=
  fun p => {| prop_type := prop_type p; prop_description := prop_description p;
              prop_required := true; prop_min := prop_min p;
              prop_max := prop_max p |}.

Definition mcp_Description (d : string) : PropertyOption :=
  fun p => {| prop_type := prop_type p; prop_description := d;
              prop_required := prop_required p; prop_min := prop_min p;
              prop_max := prop_max p |}.

(** [mcp.WithNumber]: the property gets schema type "number"; the mark of a
    required property moves from the property to the schema's [Required]
    list. *)
Definition mcp_WithNumber (name : string) (opts : list PropertyOption)
  : ToolOption :=
  fun tool =>
    let p := foldl (fun p opt => opt p)
                   {| prop_type := "number"; prop_description := "";
                      prop_required := false; prop_min := None;
                      prop_max := None |} opts in
    let s := InputSchema tool in
    {| Name := Name tool; Description := Description tool;
       Annotations := Annotations tool;
       InputSchema :=
         {| Properties :=
              <[name := {| prop_type := prop_type p;
                           prop_description := prop_description p;
                           prop_required := false;
                           prop_min := prop_min p;
                           prop_max := prop_max p |}]> (Properties s);
            Required := if prop_required p then Required s ++ [name]
                        else Required s |} |}.

(** Modelled from the spec: [WithPagination], the pagination-option builder
    of the package, is not part of [gists.go].  The spec says it "supplies
    the declared page/page-size parameters for list operations": two
    optional numeric parameters, the page number and the page size. *)
Definition WithPagination : ToolOption :=
  fun tool =>
    mcp_WithNumber "perPage"
      [mcp_Description "Results per page for pagination"]
      (mcp_WithNumber "page"
         [mcp_Description "Page number for pagination"] tool).

(** The translation helper: a key and a default text give the text shown. *)
Definition TranslationHelperFunc := string -> string -> string.

(** ** The remote client ([go-github]) and the HTTP response *)

(** [resp.Body], an [io.ReadCloser]: the bytes not read yet, the failure a
    read would meet, and whether [Close] has been called. *)
Record ReadCloser := mkBody {
  unread : string;
  read_failure : option error;
  closed : bool
}.

Record Response := mkResponse { StatusCode : Z; Body : ReadCloser }.

Definition http_StatusOK : Z := 200.

Record ListOptions := mkListOptions { Page : Z; PerPage : Z }.

Record GistListOptions := mkGistListOptions {
  Since : Z;
  GistListOptions_ListOptions : ListOptions
}.

(** What a service method hands back, [(value, resp, err)]: with a nil [err]
    the library returns the decoded value and a non-nil response; with a
    non-nil [err] the response may or may not be there. *)
Definition CallResult (A : Type) : Type :=
  (A * Response) + (option Response * error).

(** [json.Marshal] at the types the handlers serialise. *)
Class Marshaler (A : Type) := json_Marshal : A -> string + error.

(** The outcome of a handler, a result pointer and a hard error: each
    component is nil ([None]) or not. *)
Definition HandlerResult : Type := option CallToolResult * option error.

Section Handlers.

(** [context.Context] and [github.Gist] are opaque to the handlers. *)
Variables (Ctx Gist : Type).
Context {Marshal_gist : Marshaler Gist}
        {Marshal_gists : Marshaler (list Gist)}.

(** [client.Gists]: the two service methods the handlers use. *)
Record Client := mkClient {
  Gists_Get : Ctx -> string -> CallResult Gist;
  Gists_ListStarred : Ctx -> option GistListOptions -> CallResult (list Gist)
}.

Definition GetClientFn : Type := Ctx -> Client + error.

(** *** Effects

    A handler acquires a client, issues remote calls, reads and closes the
    response body.  The world records these in order, with the state of
    the body of the response received in this invocation. *)

Inductive RemoteCall :=
| Call_Gists_Get (ctx : Ctx) (id : string)
| Call_Gists_ListStarred (ctx : Ctx) (opts : option GistListOptions).

(** What a remote call delivers: one gist or a list of gists. *)
Inductive Payload :=
| OneGist (g : Gist)
| GistList (gs : list Gist).

Definition marshal_payload (o : Payload) : string + error :=
  match o with
  | OneGist g => json_Marshal g
  | GistList gs => json_Marshal gs
  end.

(** Events carry what the collaborator answered. *)
Inductive Event :=
| AcquireClient (ctx : Ctx) (failure : option error)
| Network (c : RemoteCall) (answer : CallResult Payload)
| ReadBody
| CloseBody.

Record World := mkWorld { trace : list Event; body : option ReadCloser }.

Definition initial : World := {| trace := []; body := None |}.

Definition M (A : Type) : Type := World -> A * World.

Definition ret {A} (a : A) : M A := fun w => (a, w).

Definition bind {A B} (m : M A) (k : A -> M B) : M B :=
  fun w => let (a, w') := m w in k a w'.

Definition emit (e : Event) : M unit :=
  fun w => (tt, {| trace := trace w ++ [e]; body := body w |}).

(** The body of a response just received becomes the body of this
    invocation. *)
Definition receive (r : option Response) : M unit :=
  fun w => (tt, {| trace := trace w;
                   body := match r with
                           | Some resp => Some (Body resp)
                           | None => body w
                           end |}).

Notation "'let*' x ':=' m 'in' k" := (bind m (fun x => k))
  (at level 10, x name, m at level 100, k at level 200).

(** Go's [defer]: the deferred call runs when the rest of the function has
    produced its return values. *)
Definition defer {A} (deferred : M unit) (rest : M A) : M A :=
  let* a := rest in
  let* _ := deferred in
  ret a.

(** [getClient(ctx)]. *)
Definition acquire (getClient : GetClientFn) (ctx : Ctx)
  : M (Client + error) :=
  let r := getClient ctx in
  let* _ := emit (AcquireClient ctx (match r with
                                     | inl _ => None
                                     | inr err => Some err
                                     end)) in
  ret r.

Definition response_of {A} (r : CallResult A) : option Response :=
  match r with
  | inl (_, resp) => Some resp
  | inr (resp, _) => resp
  end.

Definition answer_of {A} (wrap : A -> Payload) (r : CallResult A)
  : CallResult Payload :=
  match r with
  | inl (a, resp) => inl (wrap a, resp)
  | inr failure => inr failure
  end.

Definition remote {A} (wrap : A -> Payload) (c : RemoteCall) (r : CallResult A)
  : M (CallResult A) :=
  let* _ := emit (Network c (answer_of wrap r)) in
  let* _ := receive (response_of r) in
  ret r.

(** [client.Gists.Get(ctx, id)] and [client.Gists.ListStarred(ctx, opts)]. *)
Definition client_Gists_Get (client : Client) (ctx : Ctx) (id : string)
  : M (CallResult Gist) :=
  remote OneGist (Call_Gists_Get ctx id) (Gists_Get client ctx id).

Definition client_Gists_ListStarred (client : Client) (ctx : Ctx)
    (opts : option GistListOptions) : M (CallResult (list Gist)) :=
  remote GistList (Call_Gists_ListStarred ctx opts)
         (Gists_ListStarred client ctx opts).

(** [io.ReadAll(resp.Body)]: a successful read returns all unread bytes and
    leaves the stream at its end; a closed or failing stream gives an
    error. *)
Definition io_ReadAll : M (string * option error) :=
  fun w =>
    let w' b := {| trace := trace w ++ [ReadBody]; body := b |} in
    match body w with
    | None => (("", Some (errors_New "no response body")), w' None)
    | Some b =>
        if closed b then
          (("", Some (errors_New "http: read on closed response body")),
           w' (Some b))
        else
          match read_failure b with
          | Some e => (("", Some e), w' (Some b))
          | None =>
              ((unread b, None),
               w' (Some {| unread := ""; read_failure := None;
                           closed := false |}))
          end
    end.

(** [resp.Body.Close()]; its error is discarded by the handlers. *)
Definition Body_Close : M unit :=
  fun w =>
    (tt, {| trace := trace w ++ [CloseBody];
            body := match body w with
                    | Some b => Some {| unread := unread b;
                                        read_failure := read_failure b;
                                        closed := true |}
                    | None => None
                    end |}).

Definition ToolHandlerFunc : Type := Ctx -> CallToolRequest -> M HandlerResult.

(** *** The three tools *)

(** GetGist creates a tool to get the details of a specific gist. *)
Definition GetGist (getClient : GetClientFn) (t : TranslationHelperFunc)
  : Tool * ToolHandlerFunc :=
  (mcp_NewTool "get_gist"
     [ mcp_WithDescription
         (t "TOOL_GET_GIST_DESCRIPTION"
            "Get details of a specific gist in GitHub.");
       mcp_WithToolAnnotation
         {| Title := t "TOOL_GET_GIST_USER_TITLE" "Get gist details";
            ReadOnlyHint := true |};
       mcp_WithNumber "gist_id"
         [ mcp_Required; mcp_Description "The id of the gist to retrieve" ] ],
   fun ctx request =>
     match requiredParam_string request "gist_id" with
     | inr err => ret (Some (NewToolResultError (Error err)), None)
     | inl gistID =>
       let* c := acquire getClient ctx in
       match c with
       | inr err =>
           ret (None, Some (fmt_Errorf_w "failed to get GitHub client: " err))
       | inl client =>
         let* r := client_Gists_Get client ctx gistID in
         match r with
         | inr (_, err) =>
             ret (None, Some (fmt_Errorf_w "failed to get gist: " err))
         | inl (issue, resp) =>
           defer Body_Close
             (if decide (StatusCode resp ≠ http_StatusOK) then
                let* b := io_ReadAll in
                match b with
                | (_, Some err) =>
                    ret (None,
                         Some (fmt_Errorf_w "failed to read response body: " err))
                | (body, None) =>
                    ret (Some (NewToolResultError
                                 ("failed to get gist: " +:+ body)), None)
                end
              else
                match json_Marshal issue with
                | inr err =>
                    ret (None, Some (fmt_Errorf_w "failed to marshal gist: " err))
                | inl r => ret (Some (NewToolResultText r), None)
                end)
         end
       end
     end).

(** ListGists creates a tool to list the gists of the authenticated user. *)
Definition ListGists (getClient : GetClientFn) (t : TranslationHelperFunc)
  : Tool * ToolHandlerFunc :=
  (mcp_NewTool "list_gists"
     [ mcp_WithDescription
         (t "TOOL_LIST_DESCRIPTION" "List the gists of the authenticated user.");
       mcp_WithToolAnnotation
         {| Title := t "TOOL_LIST_GISTS_USER_TITLE" "List gists";
            ReadOnlyHint := true |};
       WithPagination ],
   fun ctx _ =>
     let* c := acquire getClient ctx in
     match c with
     | inr err =>
         ret (None, Some (fmt_Errorf_w "failed to get GitHub client: " err))
     | inl client =>
       let* r := client_Gists_ListStarred client ctx None in
       match r with
       | inr (_, err) =>
           ret (None, Some (fmt_Errorf_w "failed to list gists: " err))
       | inl (gists, resp) =>
         defer Body_Close
           (if decide (StatusCode resp ≠ http_StatusOK) then
              let* b := io_ReadAll in
              match b with
              | (_, Some err) =>
                  ret (None,
                       Some (fmt_Errorf_w "failed to read response body: " err))
              | (body, None) =>
                  ret (Some (NewToolResultError
                               ("failed to list gists: " +:+ body)), None)
              end
            else
              match json_Marshal gists with
              | inr err =>
                  ret (None, Some (fmt_Errorf_w "failed to marshal gists: " err))
              | inl r => ret (Some (NewToolResultText r), None)
              end)
       end
     end).

(** ListStarredGists creates a tool to list the starred gists of the
    authenticated user. *)
Definition ListStarredGists (getClient : GetClientFn)
    (t : TranslationHelperFunc) : Tool * ToolHandlerFunc :=
  (mcp_NewTool "list_starred_gists"
     [ mcp_WithDescription
         (t "TOOL_LIST_STARRED_DESCRIPTION"
            "List the starred gists of the authenticated user.");
       mcp_WithToolAnnotation
         {| Title := t "TOOL_LIST_STARRED_GISTS_USER_TITLE" "List starred gists";
            ReadOnlyHint := true |};
       WithPagination ],
   fun ctx _ =>
     let* c := acquire getClient ctx in
     match c with
     | inr err =>
         ret (None, Some (fmt_Errorf_w "failed to get GitHub client: " err))
     | inl client =>
       let* r := client_Gists_ListStarred client ctx None in
       match r with
       | inr (_, err) =>
           ret (None, Some (fmt_Errorf_w "failed to list starred gists: " err))
       | inl (gists, resp) =>
         defer Body_Close
           (if decide (StatusCode resp ≠ http_StatusOK) then
              let* b := io_ReadAll in
              match b with
              | (_, Some err) =>
                  ret (None,
                       Some (fmt_Errorf_w "failed to read response body: " err))
              | (body, None) =>
                  ret (Some (NewToolResultError
                               ("failed to list starred gists: " +:+ body)), None)
              end
            else
              match json_Marshal gists with
              | inr err =>
                  ret (None,
                       Some (fmt_Errorf_w "failed to marshal starred gists: " err))
              | inl r => ret (Some (NewToolResultText r), None)
              end)
       end
     end).

(** *** The three operations as a family *)

Inductive Operation := Op_GetGist | Op_ListGists | Op_ListStarredGists.

Definition tool_and_handler (op : Operation)
  : GetClientFn -> TranslationHelperFunc -> Tool * ToolHandlerFunc :=
  match op with
  | Op_GetGist => GetGist
  | Op_ListGists => ListGists
  | Op_ListStarredGists => ListStarredGists
  end.

(** One invocation: the handler runs in a fresh world. *)
Definition invoke (op : Operation) (getClient : GetClientFn)
    (t : TranslationHelperFunc) (ctx : Ctx) (request : CallToolRequest)
  : HandlerResult * World :=
  (tool_and_handler op getClient t).2 ctx request initial.

Definition descriptor (op : Operation) (getClient : GetClientFn)
    (t : TranslationHelperFunc) : Tool :=
  (tool_and_handler op getClient t).1.

(** The text each operation puts before a remote failure. *)
Definition failure_prefix (op : Operation) : string :=
  match op with
  | Op_GetGist => "failed to get gist: "
  | Op_ListGists => "failed to list gists: "
  | Op_ListStarredGists => "failed to list starred gists: "
  end.

(** *** Reading a trace *)

Definition network_calls (tr : list Event) : list RemoteCall :=
  flat_map (fun e => match e with Network c _ => [c] | _ => [] end) tr.

Definition acquisitions (tr : list Event) : nat :=
  length (flat_map (fun e => match e with AcquireClient _ _ => [e] | _ => [] end) tr).

Definition closes (tr : list Event) : nat :=
  length (flat_map (fun e => match e with CloseBody => [e] | _ => [] end) tr).

Definition reads (tr : list Event) : nat :=
  length (flat_map (fun e => match e with ReadBody => [e] | _ => [] end) tr).

(** The body of this invocation, if there is one, has been read to its end
    and closed. *)
Definition drained_and_closed (w : World) : Prop :=
  match body w with
  | Some b => unread b = "" /\ closed b = true
  | None => True
  end.

Definition body_closed (w : World) : Prop :=
  match body w with
  | Some b => closed b = true
  | None => False
  end.

End Handlers.

Arguments mkClient {Ctx Gist} _ _.
Arguments Gists_Get {Ctx Gist} _ _ _.
Arguments Gists_ListStarred {Ctx Gist} _ _ _.
Arguments Call_Gists_Get {Ctx} _ _.
Arguments Call_Gists_ListStarred {Ctx} _ _.
Arguments OneGist {Gist} _.
Arguments GistList {Gist} _.
Arguments marshal_payload {Gist _ _} _.
Arguments AcquireClient {Ctx Gist} _ _.
Arguments Network {Ctx Gist} _ _.
Arguments ReadBody {Ctx Gist}.
Arguments CloseBody {Ctx Gist}.
Arguments trace {Ctx Gist} _.
Arguments body {Ctx Gist} _.
Arguments initial {Ctx Gist}.
Arguments GetGist {Ctx Gist _} _ _.
Arguments ListGists {Ctx Gist _} _ _.
Arguments ListStarredGists {Ctx Gist _} _ _.
Arguments invoke {Ctx Gist _ _} _ _ _ _ _.
Arguments descriptor {Ctx Gist _ _} _ _ _.
Arguments network_calls {Ctx Gist} _.
Arguments acquisitions {Ctx Gist} _.
Arguments closes {Ctx Gist} _.
Arguments reads {Ctx Gist} _.
Arguments drained_and_closed {Ctx Gist} _.
Arguments body_closed {Ctx Gist} _.
Arguments answer_of {Gist A} _ _.

(** ** Test doubles

    A two-field gist, its encoder, and fake clients whose answer is fixed in
    advance; the scenarios of the specification run on them. *)

Record DemoGist := mkDemoGist {
  demo_id : option string;
  demo_description : option string
}.

Definition dquote : string := String (Ascii.ascii_of_nat 34) "".

(** Characters the encoder of the double writes as they are: printable
    ASCII other than the quote, the backslash and the three characters Go
    escapes for HTML. *)
Definition plain (c : Ascii.ascii) : bool :=
  let n := Ascii.nat_of_ascii c in
  (32 <=? n)%nat && (n <? 127)%nat
  && negb (n =? 34)%nat && negb (n =? 92)%nat
  && negb (n =? 60)%nat && negb (n =? 62)%nat && negb (n =? 38)%nat.

Fixpoint all_plain (s : string) : bool :=
  match s with
  | EmptyString => true
  | String c s' => plain c && all_plain s'
  end.

(** Strings that would need an escape are outside what the double encodes;
    they give it a way to fail. *)
Definition encode_string (s : string) : string + error :=
  if all_plain s then inl (dquote +:+ s +:+ dquote)
  else inr (errors_New "json: unsupported value").

(** A pointer field tagged [omitempty]: nothing for nil. *)
Definition encode_field (name : string) (v : option string)
  : list string + error :=
  match v with
  | None => inl []
  | Some s =>
      match encode_string s with
      | inl e => inl [dquote +:+ name +:+ dquote +:+ ":" +:+ e]
      | inr err => inr err
      end
  end.

Fixpoint join (sep : string) (l : list string) : string :=
  match l with
  | [] => ""
  | [x] => x
  | x :: rest => x +:+ sep +:+ join sep rest
  end.

Definition encode_gist (g : DemoGist) : string + error :=
  match encode_field "id" (demo_id g),
        encode_field "description" (demo_description g) with
  | inl a, inl b => inl ("{" +:+ join "," (a ++ b) +:+ "}")
  | inr err, _ => inr err
  | _, inr err => inr err
  end.

Fixpoint encode_each (gs : list DemoGist) : list string + error :=
  match gs with
  | [] => inl []
  | g :: rest =>
      match encode_gist g, encode_each rest with
      | inl e, inl es => inl (e :: es)
      | inr err, _ => inr err
      | _, inr err => inr err
      end
  end.

Definition encode_gists (gs : list DemoGist) : string + error :=
  match encode_each gs with
  | inl es => inl ("[" +:+ join "," es +:+ "]")
  | inr err => inr err
  end.

#[export] Instance demo_marshal_gist : Marshaler DemoGist := encode_gist.
#[export] Instance demo_marshal_gists : Marshaler (list DemoGist) := encode_gists.

Definition demo_gist : DemoGist :=
  {| demo_id := Some "42"; demo_description := Some "demo" |}.

Definition open_body (text : string) : ReadCloser :=
  {| unread := text; read_failure := None; closed := false |}.

(** A client that answers every call with the given status and body, and
    with [demo_gist] (alone, or as a one-element list). *)
Definition fake_client (status : Z) (text : string) : Client unit DemoGist :=
  {| Gists_Get := fun _ _ =>
       inl (demo_gist, {| StatusCode := status; Body := open_body text |});
     Gists_ListStarred := fun _ _ =>
       inl ([demo_gist], {| StatusCode := status; Body := open_body text |}) |}.

(** A client whose calls fail, with or without a response at hand. *)
Definition broken_client (resp : option Response) (err : error)
  : Client unit DemoGist :=
  {| Gists_Get := fun _ _ => inr (resp, err);
     Gists_ListStarred := fun _ _ => inr (resp, err) |}.

Definition fake_factory (c : Client unit DemoGist) : GetClientFn unit DemoGist :=
  fun _ => inl c.

Definition failing_factory (err : error) : GetClientFn unit DemoGist :=
  fun _ => inr err.

(** No translation: every key shows its default text. *)
Definition no_translation : TranslationHelperFunc := fun _ default => default.

Definition request_of (args : list (string * Value)) : CallToolRequest :=
  {| Arguments := list_to_map args |}.

Definition gist_42 : CallToolRequest := request_of [("gist_id", VString "42")].

Definition paged_request : CallToolRequest :=
  request_of [("page", VNumber (2 # 1)); ("perPage", VNumber (10 # 1))].

(** The text of the concrete scenario: an object with the two fields of
    [demo_gist], in the order the encoder writes them. *)
Definition quoted (s : string) : string := dquote +:+ s +:+ dquote.

Definition demo_json : string :=
  "{" +:+ quoted "id" +:+ ":" +:+ quoted "42" +:+ ","
      +:+ quoted "description" +:+ ":" +:+ quoted "demo" +:+ "}".

(** ** Vocabulary of the statements *)

(** A complete result is one text item, as [NewToolResultText] and
    [NewToolResultError] build it. *)
Definition complete_result (r : CallToolResult) : Prop :=
  exists text, r = NewToolResultText text \/ r = NewToolResultError text.

(** The body reads as the text [B]: open, no read failure, [B] unread. *)
Definition reads_as (b : ReadCloser) (B : string) : Prop :=
  closed b = false /\ read_failure b = None /\ unread b = B.

(** The request has no usable string under [p]: nothing, something that is
    not a string, or the empty string. *)
Definition absent_empty_or_not_string (request : CallToolRequest) (p : string)
  : Prop :=
  match Arguments request !! p with
  | None => True
  | Some (VString s) => s = ""
  | Some _ => True
  end.

(** Every parameter the descriptor lists as required can be extracted. *)
Definition required_extracted (tool : Tool) (request : CallToolRequest) : Prop :=
  forall p, In p (Required (InputSchema tool)) ->
            exists s, requiredParam_string request p = inl s.

(** Two outcomes of the two list handlers that are the same up to the
    operation's prefix of an error message. *)
Inductive prefix_variant : HandlerResult -> HandlerResult -> Prop :=
| same_outcome o : prefix_variant o o
| structured_variant B :
    prefix_variant
      (Some (NewToolResultError ("failed to list gists: " +:+ B)), None)
      (Some (NewToolResultError ("failed to list starred gists: " +:+ B)), None)
| call_variant e :
    prefix_variant
      (None, Some (fmt_Errorf_w "failed to list gists: " e))
      (None, Some (fmt_Errorf_w "failed to list starred gists: " e))
| marshal_variant e :
    prefix_variant
      (None, Some (fmt_Errorf_w "failed to marshal gists: " e))
      (None, Some (fmt_Errorf_w "failed to marshal starred gists: " e)).

(** ** Vocabulary of the further properties *)

(** The text each operation puts before an encoding failure. *)
Definition marshal_prefix (op : Operation) : string :=
  match op with
  | Op_GetGist => "failed to marshal gist: "
  | Op_ListGists => "failed to marshal gists: "
  | Op_ListStarredGists => "failed to marshal starred gists: "
  end.

(** The prefixes a hard error of an operation can carry, one per step that
    can fail: client acquisition, remote call, body read, encoding. *)
Definition hard_error_prefixes (op : Operation) : list string :=
  [ "failed to get GitHub client: "; failure_prefix op;
    "failed to read response body: "; marshal_prefix op ].

(** The five courses an invocation can take, as its trace shows them. *)
Inductive trace_shape {Ctx Gist : Type} (ctx : Ctx)
  : list (Event Ctx Gist) -> Prop :=
| shape_untouched : trace_shape ctx []
| shape_no_client e : trace_shape ctx [AcquireClient ctx (Some e)]
| shape_call_failed c r e :
    trace_shape ctx [AcquireClient ctx None; Network c (inr (r, e))]
| shape_answer_200 c O resp :
    StatusCode resp = http_StatusOK ->
    trace_shape ctx [AcquireClient ctx None; Network c (inl (O, resp));
                     CloseBody]
| shape_answer_other c O resp :
    StatusCode resp <> http_StatusOK ->
    trace_shape ctx [AcquireClient ctx None; Network c (inl (O, resp));
                     ReadBody; CloseBody].

(** A client that answers every call with the given gist and response. *)
Definition answering_client (g : DemoGist) (resp : Response)
  : Client unit DemoGist :=
  {| Gists_Get := fun _ _ => inl (g, resp);
     Gists_ListStarred := fun _ _ => inl ([g], resp) |}.

(** The body as the client library hands it back with a nil error: read by
    its decoder and closed. *)
Definition handed_back_body : ReadCloser :=
  {| unread := ""; read_failure := None; closed := true |}.

(** What the client answers to the one call of an operation: [Gists.Get]
    with the id extracted from the request, [Gists.ListStarred] with nil
    options; nothing when the id cannot be extracted. *)
Definition client_answer {Ctx Gist : Type} (op : Operation)
    (client : Client Ctx Gist) (ctx : Ctx) (request : CallToolRequest)
  : option (CallResult (Payload Gist)) :=
  match op with
  | Op_GetGist =>
      match requiredParam_string request "gist_id" with
      | inl id => Some (answer_of OneGist (Gists_Get client ctx id))
      | inr _ => None
      end
  | Op_ListGists | Op_ListStarredGists =>
      Some (answer_of GistList (Gists_ListStarred client ctx None))
  end.

(** The error a read of the body meets, if any: a closed body cannot be
    read, an open one may fail on its own. *)
Definition read_error (b : ReadCloser) : option error :=
  if closed b then Some (errors_New "http: read on closed response body")
  else read_failure b.

(** ** Proof tools *)

(** Unfold one invocation down to the answers of the collaborators. *)
Ltac unfold_handlers :=
  unfold invoke, descriptor, tool_and_handler, GetGist, ListGists,
    ListStarredGists, defer, acquire, client_Gists_Get,
    client_Gists_ListStarred, remote, bind, ret, emit, receive, io_ReadAll,
    Body_Close, initial in *;
  cbn [fst snd trace body app] in *.

(** Split on the next answer the handler inspects. *)
Ltac next_answer :=
  match goal with
  | |- context [requiredParam_string ?r ?p] =>
      destruct (requiredParam_string r p) eqn:?
  | g : GetClientFn _ _ |- _ =>
      match goal with
      | |- context [g ?ctx] => destruct (g ctx) eqn:?
      end
  | |- context [Gists_Get ?c ?ctx ?id] =>
      destruct (Gists_Get c ctx id) as [[? ?]|[? ?]] eqn:?
  | |- context [Gists_ListStarred ?c ?ctx ?o] =>
      destruct (Gists_ListStarred c ctx o) as [[? ?]|[? ?]] eqn:?
  | |- context [decide (?a ≠ ?b)] => destruct (decide (a ≠ b))
  | |- context [closed ?b] => destruct (closed b) eqn:?
  | |- context [read_failure ?b] => destruct (read_failure b) eqn:?
  | |- context [json_Marshal ?x] => destruct (json_Marshal x) eqn:?
  end; cbn [fst snd trace body app response_of answer_of Body] in *.

Ltac all_branches := unfold_handlers; repeat next_answer.

(** Use a hypothesis that an event occurs in a trace that is now explicit. *)
Ltac occurs H :=
  cbn [In] in H;
  repeat match type of H with
         | _ \/ _ => destruct H as [H|H]
         end;
  try contradiction; try discriminate H; simplify_eq.

Section Properties.

Variables (Ctx Gist : Type).
Context {Marshal_gist : Marshaler Gist}
        {Marshal_gists : Marshaler (list Gist)}.

Implicit Types (op : Operation) (getClient : GetClientFn Ctx Gist)
  (t : TranslationHelperFunc) (ctx : Ctx) (request : CallToolRequest).

Lemma required_of_descriptor op getClient t :
  Required (InputSchema (descriptor op getClient t))
  = match op with Op_GetGist => ["gist_id"] | _ => [] end.
Proof. destruct op; reflexivity. Qed.

(** C9: every invocation of each of the three handlers returns a pair with
    exactly one non-nil component: a complete result (a success payload or
    a structured error) with a nil hard error, or a nil result with a hard
    error. *)
Theorem exactly_one_outcome op getClient t ctx request :
  (exists r, (invoke op getClient t ctx request).1 = (Some r, None)
             /\ complete_result r)
  \/ (exists e, (invoke op getClient t ctx request).1 = (None, Some e)).
Proof.
  destruct op; all_branches.
  all: try (right; eexists; reflexivity).
  all: left; eexists; split; [reflexivity|]; eexists; eauto.
Qed.

(** C8: every invocation issues at most one network call, and exactly one
    whenever the required parameters are extracted and the factory returns a
    client; nothing is retried. *)
Theorem one_network_call op getClient t ctx request :
  (length (network_calls (trace (invoke op getClient t ctx request).2)) <= 1)%nat
  /\ (forall client,
        required_extracted (descriptor op getClient t) request ->
        getClient ctx = inl client ->
        length (network_calls (trace (invoke op getClient t ctx request).2)) = 1%nat).
Proof.
  split.
  - destruct op; all_branches; cbn; lia.
  - intros client Hreq Hc. unfold required_extracted in Hreq.
    rewrite required_of_descriptor in Hreq.
    destruct op.
    + destruct (Hreq "gist_id") as [s Hs]; [now left|].
      unfold_handlers. rewrite Hs, Hc. repeat next_answer; reflexivity.
    + unfold_handlers. rewrite Hc. repeat next_answer; reflexivity.
    + unfold_handlers. rewrite Hc. repeat next_answer; reflexivity.
Qed.

(** C5: when the client factory returns an error [E] to an invocation whose
    required parameters are extracted, the handler returns a nil result and
    a hard error that wraps [E] behind the prefix "failed to get GitHub
    client", and no network call is made. *)
Theorem factory_failure_is_hard_error op getClient t ctx request E :
  required_extracted (descriptor op getClient t) request ->
  getClient ctx = inr E ->
  exists e,
    (invoke op getClient t ctx request).1 = (None, Some e)
    /\ Unwrap e = Some E
    /\ Error e = "failed to get GitHub client: " +:+ Error E
    /\ network_calls (trace (invoke op getClient t ctx request).2) = [].
Proof.
  unfold required_extracted. rewrite required_of_descriptor.
  intros Hreq HE.
  destruct op; unfold_handlers; rewrite HE.
  - destruct (Hreq "gist_id") as [s ->]; [now left|].
    eexists; repeat split; reflexivity.
  - eexists; repeat split; reflexivity.
  - eexists; repeat split; reflexivity.
Qed.

Lemma success_payload_general op getClient t ctx request client O resp text :
  getClient ctx = inl client ->
  client_answer op client ctx request = Some (inl (O, resp)) ->
  StatusCode resp = http_StatusOK ->
  marshal_payload O = inl text ->
  (invoke op getClient t ctx request).1 = (Some (NewToolResultText text), None).
Proof.
  unfold client_answer.
  destruct op; all_branches; intros Hc Ha Hs Hm; simplify_eq;
    repeat match goal with
           | H : ?x = _, H' : context [?x] |- _ => rewrite H in H'
           end;
    cbn [answer_of marshal_payload] in *; simplify_eq; congruence.
Qed.

Lemma requiredParam_string_fails request p :
  absent_empty_or_not_string request p ->
  exists why, requiredParam_string request p = inr (ValidationError why p).
Proof.
  unfold absent_empty_or_not_string, requiredParam_string.
  destruct (Arguments request !! p) as [[s| | |]|]; intros H; eauto.
  subst s. rewrite decide_True by reflexivity. eauto.
Qed.

Lemma requiredParam_string_inv request p s :
  requiredParam_string request p = inl s ->
  Arguments request !! p = Some (VString s) /\ s <> "".
Proof.
  unfold requiredParam_string.
  destruct (Arguments request !! p) as [[s'| | |]|]; try discriminate.
  destruct (decide (s' = "")); [discriminate|].
  intros [= ->]. split; [reflexivity|assumption].
Qed.

(** C4: when a parameter the descriptor requires is missing, empty or not a
    string, the handler returns a structured validation error with a nil
    hard error and touches nothing: no client is acquired and no network
    call is made.  Only [GetGist] requires a parameter, [gist_id]. *)
Theorem missing_parameter_short_circuits op getClient t ctx request p :
  In p (Required (InputSchema (descriptor op getClient t))) ->
  absent_empty_or_not_string request p ->
  exists why,
    (invoke op getClient t ctx request).1
    = (Some (NewToolResultError (Error (ValidationError why p))), None)
    /\ (invoke op getClient t ctx request).2 = initial
    /\ acquisitions (trace (invoke op getClient t ctx request).2) = 0%nat
    /\ network_calls (trace (invoke op getClient t ctx request).2) = [].
Proof.
  rewrite required_of_descriptor. intros Hp Hbad.
  destruct op; cbn [In] in Hp; try contradiction.
  destruct Hp as [<-|[]].
  destruct (requiredParam_string_fails _ _ Hbad) as [why Hwhy].
  exists why. unfold_handlers. rewrite Hwhy. repeat split.
Qed.

(** C10: the descriptor of [GetGist] declares the required [gist_id] with
    schema type "number" while the handler extracts a string: a request
    whose [gist_id] is a number gets a structured error and no network call,
    and the handler goes on to acquire a client only for a string value. *)
Theorem gist_id_number_rejected getClient t ctx :
  (exists prop,
      Properties (InputSchema (GetGist getClient t).1) !! "gist_id" = Some prop
      /\ prop_type prop = "number")
  /\ In "gist_id" (Required (InputSchema (GetGist getClient t).1))
  /\ (forall request n,
        Arguments request !! "gist_id" = Some (VNumber n) ->
        (invoke Op_GetGist getClient t ctx request).1
        = (Some (NewToolResultError
                   (Error (ValidationError WrongTypeParam "gist_id"))), None)
        /\ network_calls (trace (invoke Op_GetGist getClient t ctx request).2) = []
        /\ acquisitions (trace (invoke Op_GetGist getClient t ctx request).2) = 0%nat)
  /\ (forall request failure,
        In (AcquireClient ctx failure)
           (trace (invoke Op_GetGist getClient t ctx request).2) ->
        exists s, Arguments request !! "gist_id" = Some (VString s) /\ s <> "").
Proof.
  split; [|split; [|split]].
  - eexists. split; [apply lookup_insert_eq | reflexivity].
  - now left.
  - intros request n Hn. unfold_handlers.
    unfold requiredParam_string. rewrite Hn. repeat split.
  - intros request failure. all_branches; intros H; occurs H.
    all: eexists; eapply requiredParam_string_inv; eassumption.
Qed.

(** C1: the two list handlers have the same effects, the one remote call
    [ListStarred] with nil options; on a 200 answer whose list encodes they
    return the same success payload, the encoding of that list; their
    outcomes differ at most in the prefix of an error message. *)
Theorem list_handlers_issue_same_call getClient t ctx request :
  (invoke Op_ListGists getClient t ctx request).2
  = (invoke Op_ListStarredGists getClient t ctx request).2
  /\ (forall client,
        getClient ctx = inl client ->
        network_calls (trace (invoke Op_ListGists getClient t ctx request).2)
        = [Call_Gists_ListStarred ctx None])
  /\ (forall c gists resp text,
        In (Network c (inl (GistList gists, resp)))
           (trace (invoke Op_ListGists getClient t ctx request).2) ->
        StatusCode resp = http_StatusOK ->
        json_Marshal gists = inl text ->
        (invoke Op_ListGists getClient t ctx request).1
        = (Some (NewToolResultText text), None)
        /\ (invoke Op_ListStarredGists getClient t ctx request).1
           = (Some (NewToolResultText text), None))
  /\ prefix_variant (invoke Op_ListGists getClient t ctx request).1
                    (invoke Op_ListStarredGists getClient t ctx request).1.
Proof.
  split; [|split; [|split]].
  - all_branches; reflexivity.
  - intros client Hc. unfold_handlers. rewrite Hc.
    repeat next_answer; reflexivity.
  - intros c gists resp text.
    all_branches; intros H Hs Hm; occurs H; try congruence.
    all: split; congruence.
  - all_branches; constructor.
Qed.

(** C6, as the code has it: once the remote call has answered without
    error the body is closed, exactly once, before the handler returns,
    whatever the branch; it is read to its end only when the status is not
    200, and on a 200 answer it is closed unread.  When the remote call
    fails the handler returns without reading or closing anything. *)
Theorem body_closed_once_answered op getClient t ctx request c :
  (forall O resp,
      In (Network c (inl (O, resp)))
         (trace (invoke op getClient t ctx request).2) ->
      body_closed (invoke op getClient t ctx request).2
      /\ closes (trace (invoke op getClient t ctx request).2) = 1%nat
      /\ (StatusCode resp <> http_StatusOK ->
          closed (Body resp) = false ->
          read_failure (Body resp) = None ->
          drained_and_closed (invoke op getClient t ctx request).2)
      /\ (StatusCode resp = http_StatusOK ->
          reads (trace (invoke op getClient t ctx request).2) = 0%nat
          /\ exists b, body (invoke op getClient t ctx request).2 = Some b
                       /\ unread b = unread (Body resp)))
  /\ (forall r e,
        In (Network c (inr (r, e)))
           (trace (invoke op getClient t ctx request).2) ->
        body (invoke op getClient t ctx request).2 = Body <$> r
        /\ closes (trace (invoke op getClient t ctx request).2) = 0%nat
        /\ reads (trace (invoke op getClient t ctx request).2) = 0%nat).
Proof.
  unfold body_closed, drained_and_closed. split.
  - intros O resp.
    destruct op; all_branches; intros H; occurs H.
    all: repeat split; try reflexivity; try congruence; try tauto.
    all: intros; eexists; split; reflexivity.
  - intros r e.
    destruct op; all_branches; intros H; occurs H.
    all: repeat split; destruct r; reflexivity.
Qed.

(** The list handlers never look at the request. *)
Lemma list_handlers_ignore_request op getClient t ctx request request' :
  op <> Op_GetGist ->
  invoke op getClient t ctx request = invoke op getClient t ctx request'.
Proof. destruct op; [congruence | reflexivity | reflexivity]. Qed.

End Properties.

(** ** The scenarios of the specification, on the test doubles *)

(** C3: when the client answers the call of an operation without error,
    with status 200 and the object (or list) [O], the success payload is
    exactly the JSON encoding of [O], one text item and no error mark; in
    the concrete scenario, [GetGist] called with [gist_id] "42" on a client
    answering 200 with an object that the encoder writes as [demo_json]
    yields the literal text of [demo_json]. *)
Theorem success_payload_is_encoding :
  (forall (Ctx Gist : Type) (Mg : Marshaler Gist) (Mgs : Marshaler (list Gist))
          (op : Operation) (getClient : GetClientFn Ctx Gist)
          (t : TranslationHelperFunc) (ctx : Ctx) (request : CallToolRequest)
          (client : Client Ctx Gist) (O : Payload Gist) (resp : Response)
          (text : string),
      getClient ctx = inl client ->
      client_answer op client ctx request = Some (inl (O, resp)) ->
      StatusCode resp = http_StatusOK ->
      marshal_payload O = inl text ->
      (invoke op getClient t ctx request).1
      = (Some {| Content := [ {| Type_ := "text"; Text := text |} ];
                 IsError := false |}, None))
  /\ (forall (Ctx Gist : Type) (Mg : Marshaler Gist)
             (Mgs : Marshaler (list Gist)) (getClient : GetClientFn Ctx Gist)
             (t : TranslationHelperFunc) (ctx : Ctx)
             (request : CallToolRequest) (client : Client Ctx Gist)
             (g : Gist) (resp : Response),
        Arguments request !! "gist_id" = Some (VString "42") ->
        getClient ctx = inl client ->
        Gists_Get client ctx "42" = inl (g, resp) ->
        StatusCode resp = http_StatusOK ->
        json_Marshal g = inl demo_json ->
        (invoke Op_GetGist getClient t ctx request).1
        = (Some {| Content := [ {| Type_ := "text"; Text := demo_json |} ];
                   IsError := false |}, None)).
Proof.
  split.
  - intros. eapply success_payload_general; eassumption.
  - intros Ctx Gist Mg Mgs getClient t ctx request client g resp
           Hid Hc Hg Hs Hm.
    eapply success_payload_general with (O := OneGist g);
      [exact Hc | | exact Hs | exact Hm].
    unfold client_answer, requiredParam_string. rewrite Hid.
    rewrite decide_False by discriminate. rewrite Hg. reflexivity.
Qed.

(** The two scenarios of C3 on the test double: [GetGist] with [gist_id]
    "42", and a list handler, each on a 200 answer handed back with its body
    already closed. *)
Lemma success_payload_is_encoding_witness :
  (invoke Op_GetGist
          (fake_factory
             (answering_client demo_gist
                {| StatusCode := 200; Body := handed_back_body |}))
          no_translation tt gist_42).1
  = (Some (NewToolResultText demo_json), None)
  /\ (invoke Op_ListGists
             (fake_factory
                (answering_client demo_gist
                   {| StatusCode := 200; Body := handed_back_body |}))
             no_translation tt paged_request).1
     = (Some (NewToolResultText ("[" +:+ demo_json +:+ "]")), None).
Proof.
  split.
  - refine (proj2 success_payload_is_encoding unit DemoGist _ _
              (fake_factory
                 (answering_client demo_gist
                    {| StatusCode := 200; Body := handed_back_body |}))
              no_translation tt gist_42
              (answering_client demo_gist
                 {| StatusCode := 200; Body := handed_back_body |})
              demo_gist {| StatusCode := 200; Body := handed_back_body |}
              _ _ _ _ _).
    + vm_compute. reflexivity.
    + reflexivity.
    + reflexivity.
    + reflexivity.
    + vm_compute. reflexivity.
  - refine (proj1 success_payload_is_encoding unit DemoGist _ _
              Op_ListGists
              (fake_factory
                 (answering_client demo_gist
                    {| StatusCode := 200; Body := handed_back_body |}))
              no_translation tt paged_request
              (answering_client demo_gist
                 {| StatusCode := 200; Body := handed_back_body |})
              (GistList [demo_gist])
              {| StatusCode := 200; Body := handed_back_body |}
              ("[" +:+ demo_json +:+ "]") _ _ _ _).
    + reflexivity.
    + reflexivity.
    + reflexivity.
    + vm_compute. reflexivity.
Defined.

(** The scenario of C8: a valid request on a working client makes one call. *)
Lemma one_network_call_witness :
  length (network_calls
            (trace (invoke Op_GetGist (fake_factory (fake_client 200 ""))
                           no_translation tt gist_42).2)) = 1%nat.
Proof.
  refine (proj2 (one_network_call unit DemoGist Op_GetGist
                   (fake_factory (fake_client 200 "")) no_translation
                   tt gist_42) (fake_client 200 "") _ _).
  - intros p Hp. cbn in Hp. destruct Hp as [<-|[]].
    exists "42". vm_compute. reflexivity.
  - reflexivity.
Defined.

(** The scenario of C5: the factory fails on a valid [GetGist] request; the
    hard error wraps its failure. *)
Lemma factory_failure_is_hard_error_witness :
  exists e,
    (invoke Op_GetGist (failing_factory (errors_New "no token"))
            no_translation tt gist_42).1 = (None, Some e)
    /\ Unwrap e = Some (errors_New "no token")
    /\ Error e = "failed to get GitHub client: no token"
    /\ network_calls
         (trace (invoke Op_GetGist
                        (failing_factory (errors_New "no token"))
                        no_translation tt gist_42).2) = [].
Proof.
  refine (factory_failure_is_hard_error unit DemoGist Op_GetGist
            (failing_factory (errors_New "no token")) no_translation
            tt gist_42 (errors_New "no token") _ _).
  - intros p Hp. cbn in Hp. destruct Hp as [<-|[]].
    exists "42". vm_compute. reflexivity.
  - reflexivity.
Defined.

(** C2 on the code: the handlers test the error of the remote call before
    they look at the status.  A client that hands back a response together
    with an error, as the client library does for a status outside 2xx, gets
    the hard error of the call whatever the status and the body of that
    response, and the body is never read; the 403 answer with body "rate
    limited" therefore does not give the structured error "failed to get
    gist: rate limited". *)
Theorem error_status_is_hard_error :
  (forall (op : Operation) (resp : Response) (err : error),
      (invoke op (fake_factory (broken_client (Some resp) err))
              no_translation tt gist_42).1
      = (None, Some (fmt_Errorf_w (failure_prefix op) err))
      /\ reads (trace (invoke op (fake_factory (broken_client (Some resp) err))
                              no_translation tt gist_42).2) = 0%nat)
  /\ (invoke Op_GetGist
             (fake_factory
                (broken_client
                   (Some {| StatusCode := 403;
                            Body := open_body "rate limited" |})
                   (errors_New "403 rate limited")))
             no_translation tt gist_42).1
     <> (Some (NewToolResultError "failed to get gist: rate limited"), None).
Proof.
  split.
  - intros op resp err. destruct op; split; vm_compute; reflexivity.
  - vm_compute. discriminate.
Qed.

(** The scenario of C4: [GetGist] invoked without [gist_id]. *)
Lemma missing_parameter_short_circuits_witness :
  exists why,
    (invoke Op_GetGist (fake_factory (fake_client 200 "")) no_translation
            tt paged_request).1
    = (Some (NewToolResultError (Error (ValidationError why "gist_id"))), None)
    /\ (invoke Op_GetGist (fake_factory (fake_client 200 "")) no_translation
               tt paged_request).2 = initial
    /\ acquisitions
         (trace (invoke Op_GetGist (fake_factory (fake_client 200 ""))
                        no_translation tt paged_request).2) = 0%nat
    /\ network_calls
         (trace (invoke Op_GetGist (fake_factory (fake_client 200 ""))
                        no_translation tt paged_request).2) = [].
Proof.
  refine (missing_parameter_short_circuits unit DemoGist Op_GetGist
            (fake_factory (fake_client 200 "")) no_translation
            tt paged_request "gist_id" _ _).
  - simpl. left. reflexivity.
  - vm_compute. exact I.
Defined.

(** The scenario of C10: [gist_id] supplied as the number 42, as the schema
    asks. *)
Lemma gist_id_number_rejected_witness :
  (invoke Op_GetGist (fake_factory (fake_client 200 "")) no_translation tt
          (request_of [("gist_id", VNumber (42 # 1))])).1
  = (Some (NewToolResultError "parameter gist_id is not of type string"), None)
  /\ network_calls
       (trace (invoke Op_GetGist (fake_factory (fake_client 200 ""))
                      no_translation tt
                      (request_of [("gist_id", VNumber (42 # 1))])).2) = []
  /\ acquisitions
       (trace (invoke Op_GetGist (fake_factory (fake_client 200 ""))
                      no_translation tt
                      (request_of [("gist_id", VNumber (42 # 1))])).2) = 0%nat.
Proof.
  refine (proj1 (proj2 (proj2
            (gist_id_number_rejected unit DemoGist
               (fake_factory (fake_client 200 "")) no_translation tt)))
            (request_of [("gist_id", VNumber (42 # 1))]) (42 # 1) _).
  vm_compute. reflexivity.
Defined.

(** The scenario of C1: both list handlers on a client answering 200. *)
Lemma list_handlers_issue_same_call_witness :
  (invoke Op_ListGists (fake_factory (fake_client 200 "")) no_translation
          tt paged_request).1
  = (Some (NewToolResultText ("[" +:+ demo_json +:+ "]")), None)
  /\ (invoke Op_ListStarredGists (fake_factory (fake_client 200 ""))
             no_translation tt paged_request).1
     = (Some (NewToolResultText ("[" +:+ demo_json +:+ "]")), None).
Proof.
  refine (proj1 (proj2 (proj2
            (list_handlers_issue_same_call unit DemoGist
               (fake_factory (fake_client 200 "")) no_translation
               tt paged_request)))
            (Call_Gists_ListStarred tt None) [demo_gist]
            {| StatusCode := 200; Body := open_body "" |}
            ("[" +:+ demo_json +:+ "]") _ _ _).
  - vm_compute. right. left. reflexivity.
  - reflexivity.
  - vm_compute. reflexivity.
Defined.

(** C6 as stated fails on two branches.  On success the handler closes the
    body without reading it: a 200 answer whose body still holds bytes
    leaves them unread.  When the remote call fails and a response came with
    the error, the handler returns before the close is registered. *)
Lemma body_not_always_drained_and_closed :
  (network_calls
     (trace (invoke Op_GetGist (fake_factory (fake_client 200 "leftover"))
                    no_translation tt gist_42).2) <> []
   /\ ~ drained_and_closed
         (invoke Op_GetGist (fake_factory (fake_client 200 "leftover"))
                 no_translation tt gist_42).2)
  /\ (network_calls
        (trace (invoke Op_GetGist
                  (fake_factory
                     (broken_client
                        (Some {| StatusCode := 502; Body := open_body "" |})
                        (errors_New "bad gateway")))
                  no_translation tt gist_42).2) <> []
      /\ ~ drained_and_closed
            (invoke Op_GetGist
               (fake_factory
                  (broken_client
                     (Some {| StatusCode := 502; Body := open_body "" |})
                     (errors_New "bad gateway")))
               no_translation tt gist_42).2).
Proof.
  split; split.
  - vm_compute. discriminate.
  - vm_compute. intros [H _]. discriminate H.
  - vm_compute. discriminate.
  - vm_compute. intros [_ H]. discriminate H.
Qed.

(** The scenario of the amended C6: a non-200 answer is drained and closed. *)
Lemma body_closed_once_answered_witness :
  body_closed (invoke Op_ListGists (fake_factory (fake_client 404 "Not Found"))
                      no_translation tt paged_request).2
  /\ closes (trace (invoke Op_ListGists
                            (fake_factory (fake_client 404 "Not Found"))
                            no_translation tt paged_request).2) = 1%nat
  /\ drained_and_closed
       (invoke Op_ListGists (fake_factory (fake_client 404 "Not Found"))
               no_translation tt paged_request).2.
Proof.
  assert (Hin : In (Network (Call_Gists_ListStarred tt None)
                      (inl (GistList [demo_gist],
                            {| StatusCode := 404;
                               Body := open_body "Not Found" |})))
                   (trace (invoke Op_ListGists
                                  (fake_factory (fake_client 404 "Not Found"))
                                  no_translation tt paged_request).2)).
  { vm_compute. right. left. reflexivity. }
  destruct (proj1 (body_closed_once_answered unit DemoGist Op_ListGists
                     (fake_factory (fake_client 404 "Not Found"))
                     no_translation tt paged_request
                     (Call_Gists_ListStarred tt None)) _ _ Hin)
    as (Hclosed & Honce & Hdrained & _).
  split; [exact Hclosed | split; [exact Honce |]].
  apply Hdrained; [vm_compute; discriminate | reflexivity | reflexivity].
Defined.

(** C7 on the code: a request carrying page 2 and page size 10 reaches the
    remote list call with nil options, for both list handlers, and no
    request changes what a list handler does. *)
Theorem pagination_not_forwarded :
  Arguments paged_request !! "page" = Some (VNumber (2 # 1))
  /\ Arguments paged_request !! "perPage" = Some (VNumber (10 # 1))
  /\ network_calls
       (trace (invoke Op_ListGists (fake_factory (fake_client 200 ""))
                      no_translation tt paged_request).2)
     = [Call_Gists_ListStarred tt None]
  /\ network_calls
       (trace (invoke Op_ListStarredGists (fake_factory (fake_client 200 ""))
                      no_translation tt paged_request).2)
     = [Call_Gists_ListStarred tt None]
  /\ (forall (Ctx Gist : Type) (Mg : Marshaler Gist)
             (Mgs : Marshaler (list Gist)) (getClient : GetClientFn Ctx Gist)
             (t : TranslationHelperFunc) (ctx : Ctx)
             (request request' : CallToolRequest),
        invoke Op_ListGists getClient t ctx request
        = invoke Op_ListGists getClient t ctx request'
        /\ invoke Op_ListStarredGists getClient t ctx request
           = invoke Op_ListStarredGists getClient t ctx request').
Proof.
  repeat split; vm_compute; reflexivity.
Qed.

(** ** Further properties of the handlers: the failure branches, the origin
    of each kind of outcome, and the order of effects *)

Section FurtherProperties.

Variables (Ctx Gist : Type).
Context {Marshal_gist : Marshaler Gist}
        {Marshal_gists : Marshaler (list Gist)}.

Implicit Types (op : Operation) (getClient : GetClientFn Ctx Gist)
  (t : TranslationHelperFunc) (ctx : Ctx) (request : CallToolRequest).

Lemma requiredParam_string_error request p e :
  requiredParam_string request p = inr e ->
  exists why, e = ValidationError why p.
Proof.
  unfold requiredParam_string.
  destruct (Arguments request !! p) as [[s| | |]|];
    try (intros [= <-]; eauto).
  destruct (decide (s = "")); intros [= <-]; eauto.
Qed.

(** X1: when the client answers the call of an operation with an error,
    the handler returns a nil result and a hard error wrapping that error
    behind the prefix of the operation, whether or not a response came with
    the error and whatever its status; the body is not read. *)
Theorem remote_failure_is_hard_error op getClient t ctx request client r e :
  getClient ctx = inl client ->
  client_answer op client ctx request = Some (inr (r, e)) ->
  exists h,
    (invoke op getClient t ctx request).1 = (None, Some h)
    /\ Unwrap h = Some e
    /\ Error h = failure_prefix op +:+ Error e
    /\ reads (trace (invoke op getClient t ctx request).2) = 0%nat.
Proof.
  unfold client_answer.
  destruct op; all_branches; intros Hc Ha; simplify_eq;
    repeat match goal with
           | H : ?x = _, H' : context [?x] |- _ => rewrite H in H'
           end;
    cbn [answer_of] in *; simplify_eq.
  all: eexists; repeat split; reflexivity.
Qed.

(** X2: when the client answers the call of an operation without error,
    with a status other than 200, and the body cannot be read (it is
    already closed, or the read fails), the handler returns a nil result and
    a hard error wrapping the read error behind "failed to read response
    body", the same for the three operations; the body ends closed. *)
Theorem unreadable_body_is_hard_error
    op getClient t ctx request client O resp e :
  getClient ctx = inl client ->
  client_answer op client ctx request = Some (inl (O, resp)) ->
  StatusCode resp <> http_StatusOK ->
  read_error (Body resp) = Some e ->
  (invoke op getClient t ctx request).1
  = (None, Some (fmt_Errorf_w "failed to read response body: " e))
  /\ body_closed (invoke op getClient t ctx request).2.
Proof.
  unfold client_answer, body_closed, read_error.
  destruct op; all_branches; intros Hc Ha Hs He; simplify_eq;
    repeat match goal with
           | H : ?x = _, H' : context [?x] |- _ => rewrite H in H'
           end;
    cbn [answer_of closed] in *; simplify_eq; try tauto; try congruence.
  all: split; reflexivity.
Qed.

(** X4: a success result comes only from a 200 answer: whenever the result
    is not marked as an error, the remote call answered without error with
    status 200 and the result holds the encoding of what it delivered. *)
Theorem text_result_only_from_200 op getClient t ctx request r :
  (invoke op getClient t ctx request).1.1 = Some r ->
  IsError r = false ->
  exists c O resp text,
    In (Network c (inl (O, resp)))
       (trace (invoke op getClient t ctx request).2)
    /\ StatusCode resp = http_StatusOK
    /\ marshal_payload O = inl text
    /\ r = NewToolResultText text.
Proof.
  destruct op; all_branches; intros Hr He; simplify_eq; try discriminate He.
  all: do 4 eexists; split; [right; left; reflexivity|].
  all: repeat split; [unfold http_StatusOK in *; lia | eassumption].
Qed.

(** X5: a structured error has one of two origins: the required parameter of
    [GetGist] could not be extracted and nothing was touched, or the remote
    call answered without error with a status other than 200 and the message
    is the prefix of the operation followed by the body read. *)
Theorem structured_error_origin op getClient t ctx request r :
  (invoke op getClient t ctx request).1.1 = Some r ->
  IsError r = true ->
  (exists why,
      op = Op_GetGist
      /\ requiredParam_string request "gist_id"
         = inr (ValidationError why "gist_id")
      /\ r = NewToolResultError (validation_message why "gist_id")
      /\ trace (invoke op getClient t ctx request).2 = [])
  \/ (exists c O resp,
        In (Network c (inl (O, resp)))
           (trace (invoke op getClient t ctx request).2)
        /\ StatusCode resp <> http_StatusOK
        /\ reads_as (Body resp) (unread (Body resp))
        /\ r = NewToolResultError
                 (failure_prefix op +:+ unread (Body resp))).
Proof.
  unfold reads_as.
  destruct op; all_branches; intros Hr He; simplify_eq; try discriminate He.
  all: try (right; do 3 eexists; split; [right; left; reflexivity|];
            repeat split; assumption).
  left.
  match goal with
  | H : requiredParam_string _ _ = inr ?e |- _ =>
      destruct (requiredParam_string_error _ _ _ H) as [why ->]
  end.
  exists why. repeat split.
Qed.

(** X6: a hard error is never bare: it always wraps the failure of one step
    behind one of the four prefixes of the operation, so [Unwrap] gives the
    cause back. *)
Theorem hard_error_is_wrapped op getClient t ctx request h :
  (invoke op getClient t ctx request).1.2 = Some h ->
  exists prefix cause,
    h = fmt_Errorf_w prefix cause
    /\ In prefix (hard_error_prefixes op)
    /\ Unwrap h = Some cause
    /\ (invoke op getClient t ctx request).1.1 = None.
Proof.
  destruct op; all_branches; intros H; simplify_eq.
  all: do 2 eexists; split; [reflexivity|]; split; [|split; reflexivity].
  all: cbn; tauto.
Qed.

(** X7: the effects of an invocation come in a fixed order and at most once
    each: nothing at all, or the factory alone, or the factory then the one
    remote call, then, once the call has answered, a read exactly when the
    status is not 200, and the close last.  The context handed to the
    factory is the one of the invocation. *)
Theorem effects_in_order op getClient t ctx request :
  trace_shape ctx (trace (invoke op getClient t ctx request).2).
Proof.
  destruct op; all_branches; try (constructor; fail).
  all: try (apply shape_answer_other; assumption).
  all: apply shape_answer_200; unfold http_StatusOK in *; lia.
Qed.

(** X8: [GetGist] hands the extracted [gist_id] unchanged, with the context
    of the invocation, to the client the factory returned for that context,
    and records what that client answered; a list handler issues no call but
    [ListStarred] with nil options. *)
Theorem calls_go_to_acquired_client op getClient t ctx request c answer :
  In (Network c answer) (trace (invoke op getClient t ctx request).2) ->
  exists client,
    getClient ctx = inl client
    /\ match op with
       | Op_GetGist =>
           exists id,
             Arguments request !! "gist_id" = Some (VString id)
             /\ c = Call_Gists_Get ctx id
             /\ answer = answer_of OneGist (Gists_Get client ctx id)
       | _ =>
           c = Call_Gists_ListStarred ctx None
           /\ answer = answer_of GistList (Gists_ListStarred client ctx None)
       end.
Proof.
  destruct op; all_branches; intros H; occurs H.
  all: eexists; split; [reflexivity|].
  all: try (eexists; split;
            [eapply requiredParam_string_inv; eassumption|]).
  all: split; [reflexivity|].
  all: match goal with
       | H : ?call = _ |- _ = answer_of _ ?call => rewrite H; reflexivity
       end.
Qed.

(** X9: the translation helper reaches the description and the title only:
    for any two helpers and factories an operation has the same tool name,
    the same input schema, the read-only mark, and, given the factory, the
    same handler; different operations have different tool names. *)
Theorem translation_is_cosmetic op op' getClient getClient' t t' :
  Name (descriptor op getClient t) = Name (descriptor op getClient' t')
  /\ InputSchema (descriptor op getClient t)
     = InputSchema (descriptor op getClient' t')
  /\ ReadOnlyHint (Annotations (descriptor op getClient t)) = true
  /\ (tool_and_handler Ctx Gist op getClient t).2
     = (tool_and_handler Ctx Gist op getClient t').2
  /\ (op <> op' ->
      Name (descriptor op getClient t) <> Name (descriptor op' getClient' t')).
Proof.
  repeat split; try (destruct op; reflexivity).
  destruct op, op'; cbn; intros Hne H; try contradiction; discriminate H.
Qed.

End FurtherProperties.

(** ** Scenarios of the further properties *)

(** X1 on a client whose call fails with a 502 response at hand. *)
Lemma remote_failure_is_hard_error_witness :
  exists h,
    (invoke Op_ListGists
            (fake_factory
               (broken_client
                  (Some {| StatusCode := 502; Body := open_body "" |})
                  (errors_New "bad gateway")))
            no_translation tt paged_request).1 = (None, Some h)
    /\ Unwrap h = Some (errors_New "bad gateway")
    /\ Error h = "failed to list gists: bad gateway"
    /\ reads (trace (invoke Op_ListGists
                            (fake_factory
                               (broken_client
                                  (Some {| StatusCode := 502;
                                           Body := open_body "" |})
                                  (errors_New "bad gateway")))
                            no_translation tt paged_request).2) = 0%nat.
Proof.
  refine (remote_failure_is_hard_error unit DemoGist Op_ListGists
            (fake_factory
               (broken_client
                  (Some {| StatusCode := 502; Body := open_body "" |})
                  (errors_New "bad gateway")))
            no_translation tt paged_request
            (broken_client
               (Some {| StatusCode := 502; Body := open_body "" |})
               (errors_New "bad gateway"))
            (Some {| StatusCode := 502; Body := open_body "" |})
            (errors_New "bad gateway") _ _).
  - reflexivity.
  - reflexivity.
Defined.

(** X2 on a 201 answer handed back with its body already closed. *)
Lemma unreadable_body_is_hard_error_witness :
  (invoke Op_GetGist
          (fake_factory
             (answering_client demo_gist
                {| StatusCode := 201; Body := handed_back_body |}))
          no_translation tt gist_42).1
  = (None, Some (fmt_Errorf_w "failed to read response body: "
                   (errors_New "http: read on closed response body")))
  /\ body_closed
       (invoke Op_GetGist
               (fake_factory
                  (answering_client demo_gist
                     {| StatusCode := 201; Body := handed_back_body |}))
               no_translation tt gist_42).2.
Proof.
  refine (unreadable_body_is_hard_error unit DemoGist Op_GetGist
            (fake_factory
               (answering_client demo_gist
                  {| StatusCode := 201; Body := handed_back_body |}))
            no_translation tt gist_42
            (answering_client demo_gist
               {| StatusCode := 201; Body := handed_back_body |})
            (OneGist demo_gist)
            {| StatusCode := 201; Body := handed_back_body |}
            (errors_New "http: read on closed response body") _ _ _ _).
  - reflexivity.
  - vm_compute. reflexivity.
  - vm_compute. discriminate.
  - reflexivity.
Defined.

(** X4 on the success scenario: the text result traces back to a 200. *)
Lemma text_result_only_from_200_witness :
  exists c O resp text,
    In (Network c (inl (O, resp)))
       (trace (invoke Op_GetGist (fake_factory (fake_client 200 ""))
                      no_translation tt gist_42).2)
    /\ StatusCode resp = http_StatusOK
    /\ marshal_payload O = inl text
    /\ NewToolResultText demo_json = NewToolResultText text.
Proof.
  refine (text_result_only_from_200 unit DemoGist Op_GetGist
            (fake_factory (fake_client 200 "")) no_translation tt gist_42
            (NewToolResultText demo_json) _ _).
  - vm_compute. reflexivity.
  - reflexivity.
Defined.

(** X5 on [GetGist] invoked without [gist_id]. *)
Lemma structured_error_origin_witness :
  (exists why,
      Op_GetGist = Op_GetGist
      /\ requiredParam_string paged_request "gist_id"
         = inr (ValidationError why "gist_id")
      /\ NewToolResultError "missing required parameter: gist_id"
         = NewToolResultError (validation_message why "gist_id")
      /\ trace (invoke Op_GetGist (fake_factory (fake_client 200 ""))
                       no_translation tt paged_request).2 = [])
  \/ (exists c O resp,
        In (Network c (inl (O, resp)))
           (trace (invoke Op_GetGist (fake_factory (fake_client 200 ""))
                          no_translation tt paged_request).2)
        /\ StatusCode resp <> http_StatusOK
        /\ reads_as (Body resp) (unread (Body resp))
        /\ NewToolResultError "missing required parameter: gist_id"
           = NewToolResultError
               (failure_prefix Op_GetGist +:+ unread (Body resp))).
Proof.
  refine (structured_error_origin unit DemoGist Op_GetGist
            (fake_factory (fake_client 200 "")) no_translation tt
            paged_request
            (NewToolResultError "missing required parameter: gist_id") _ _).
  - vm_compute. reflexivity.
  - reflexivity.
Defined.

(** X6 on a failing factory. *)
Lemma hard_error_is_wrapped_witness :
  exists prefix cause,
    fmt_Errorf_w "failed to get GitHub client: " (errors_New "no token")
    = fmt_Errorf_w prefix cause
    /\ In prefix (hard_error_prefixes Op_GetGist)
    /\ Unwrap (fmt_Errorf_w "failed to get GitHub client: "
                            (errors_New "no token")) = Some cause
    /\ (invoke Op_GetGist (failing_factory (errors_New "no token"))
               no_translation tt gist_42).1.1 = None.
Proof.
  refine (hard_error_is_wrapped unit DemoGist Op_GetGist
            (failing_factory (errors_New "no token")) no_translation tt
            gist_42
            (fmt_Errorf_w "failed to get GitHub client: "
                          (errors_New "no token")) _).
  vm_compute. reflexivity.
Defined.

(** X8 on the success scenario: the call carries the id of the request. *)
Lemma calls_go_to_acquired_client_witness :
  exists client,
    fake_factory (fake_client 200 "") tt = inl client
    /\ exists id,
         Arguments gist_42 !! "gist_id" = Some (VString id)
         /\ Call_Gists_Get tt "42" = Call_Gists_Get tt id
         /\ inl (OneGist demo_gist,
                 {| StatusCode := 200; Body := open_body "" |})
            = answer_of OneGist (Gists_Get client tt id).
Proof.
  refine (calls_go_to_acquired_client unit DemoGist Op_GetGist
            (fake_factory (fake_client 200 "")) no_translation tt gist_42
            (Call_Gists_Get tt "42")
            (inl (OneGist demo_gist,
                  {| StatusCode := 200; Body := open_body "" |})) _).
  vm_compute. right. left. reflexivity.
Defined.

(** X9 on two operations: their tools have different names. *)
Lemma translation_is_cosmetic_witness :
  Name (descriptor Op_ListGists (fake_factory (fake_client 200 ""))
                   no_translation)
  <> Name (descriptor Op_ListStarredGists
                      (failing_factory (errors_New "no token"))
                      (fun key _ => key)).
Proof.
  refine (proj2 (proj2 (proj2 (proj2
            (translation_is_cosmetic unit DemoGist
               Op_ListGists Op_ListStarredGists
               (fake_factory (fake_client 200 ""))
               (failing_factory (errors_New "no token"))
               no_translation (fun key _ => key))))) _).
  discriminate.
Defined.
